(** * nextjs-beginner-app: the pages and the API route, embedded and verified

    The repository is a handful of Next.js page modules:

    - [pages/posts/[id].js]: the [Post] component and [getServerSideProps];
    - [pages/index.js], [pages/about.js], [pages/image-optimization.js]:
      components that return a fixed element tree, and [getStaticProps];
    - [pages/api/hello.js]: the API route [handler].

    JavaScript values are embedded as an inductive type whose objects are
    finite maps from property names to values; JSX is embedded as the tree
    of elements it denotes; [async] functions are embedded as terms of a
    small free monad whose only effects are the two operations the code
    awaits, and they are run against an arbitrary network. *)

From Stdlib Require Import ZArith Floats.SpecFloat.
From stdpp Require Import base option gmap strings list fin_maps.

Open Scope string_scope.
Open Scope Z_scope.

Set Warnings "-register-all".

(* ===================================================================== *)
(** * JavaScript values                                                   *)
(* ===================================================================== *)

Module Js.

(** A JavaScript number is an IEEE 754 binary64 float. *)
Definition number : Type := spec_float.

Definition number_of_Z (z : Z) : number := binary_normalize 53 1024 z 0 false.

(** The values a page can meet: [undefined] (an absent property) and
    whatever [JSON.parse] produces. Objects map property names to
    values. *)
Inductive value : Type :=
| VUndefined
| VNull
| VBool (b : bool)
| VNum (n : number)
| VStr (s : string)
| VArr (items : list value)
| VObj (fields : gmap string value).

(** What a [throw] or a rejected promise carries. *)
Inductive exn : Type :=
| JsError (name : string) (message : string).

(** How a call ends: it returns, or it throws. *)
Inductive outcome (A : Type) : Type :=
| Returned (a : A)
| Thrown (e : exn).
Arguments Returned {A} a.
Arguments Thrown {A} e.

Definition obind {A B} (o : outcome A) (k : A → outcome B) : outcome B :=
  match o with
  | Returned a => k a
  | Thrown e => Thrown e
  end.

(** ToBoolean: [undefined], [null], [false], [+0], [-0], [NaN] and the
    empty string are falsy; every other value, and so every object and
    every array, is truthy. *)
Definition truthy (v : value) : bool :=
  match v with
  | VUndefined | VNull => false
  | VBool b => b
  | VNum (S754_zero _) | VNum S754_nan => false
  | VNum _ => true
  | VStr "" => false
  | VStr _ => true
  | VArr _ | VObj _ => true
  end.

(** [o.k] read from an object that is known to be one (the [props] a
    component receives): the own property, or [undefined]. *)
Definition field (o : gmap string value) (k : string) : value :=
  default VUndefined (o !! k).

(** The member access [v.k], for a name [k] that no built-in prototype
    defines and that is neither [length] nor an index ([title] and
    [body] are such names). On [undefined] and [null] it throws a
    TypeError; on an object it reads the own property; on every other
    value it is [undefined]. *)
Definition member (v : value) (k : string) : outcome value :=
  match v with
  | VUndefined | VNull =>
      Thrown (JsError "TypeError" ("Cannot read properties of undefined or null: " +:+ k))
  | VObj o => Returned (field o k)
  | VBool _ | VNum _ | VStr _ | VArr _ => Returned VUndefined
  end.

End Js.
Export Js.

#[global] Instance outcome_ret : MRet outcome := @Returned.
#[global] Instance outcome_bind : MBind outcome := λ A B k o, obind o k.

(* ===================================================================== *)
(** * JSX: element trees                                                  *)
(* ===================================================================== *)

Module Jsx.

(** What a JSX tag names: an HTML element ([<div>]) or an imported
    component ([<Image>]). *)
Inductive tag : Type :=
| Html (name : string)
| Component (name : string).

(** A JSX node: literal text, an expression container [{e}] holding the
    value of [e], or an element with its attributes and children. *)
Inductive node : Type :=
| Text (s : string)
| Expr (v : value)
| Elem (t : tag) (attrs : list (string * value)) (children : list node).

(** [inside t c n]: somewhere in [n] there is a [t] element that has
    [c] among its children. *)
Inductive inside (t : tag) (c : node) : node → Prop :=
| inside_here attrs kids :
    c ∈ kids → inside t c (Elem t attrs kids)
| inside_below t' attrs kids k :
    k ∈ kids → inside t c k → inside t c (Elem t' attrs kids).

End Jsx.
Export Jsx.

(* ===================================================================== *)
(** * Async functions and the network                                     *)
(* ===================================================================== *)

Module Async.

(** The request that [fetch] sends. *)
Record request : Type := { method : string; url : string }.

(** A [Response]: its status line, and how the promise returned by its
    [json()] method settles: with the decoded body, or with the
    SyntaxError of a body that is not JSON. *)
Record response : Type := { status : Z; json_result : outcome value }.

(** An [async] function body: it returns, throws, or awaits one of the
    two promises this code base awaits and goes on with what the promise
    resolves to. *)
Inductive async (A : Type) : Type :=
| Ret (a : A)
| Throw (e : exn)
| AwaitFetch (rq : request) (k : response → async A)
| AwaitJson (r : response) (k : value → async A).
Arguments Ret {A} a.
Arguments Throw {A} e.
Arguments AwaitFetch {A} rq k.
Arguments AwaitJson {A} r k.

Fixpoint abind {A B} (p : async A) (f : A → async B) : async B :=
  match p with
  | Ret a => f a
  | Throw e => Throw e
  | AwaitFetch rq k => AwaitFetch rq (λ r, abind (k r) f)
  | AwaitJson r k => AwaitJson r (λ v, abind (k v) f)
  end.

#[global] Instance async_ret : MRet async := @Ret.
#[global] Instance async_bind : MBind async := λ A B f p, abind p f.

(** A synchronous call made from an [async] body. *)
Definition lift {A} (o : outcome A) : async A :=
  match o with
  | Returned a => Ret a
  | Thrown e => Throw e
  end.

(** [await fetch(url)]: called with the URL alone, [fetch] sends a GET. *)
Definition fetch (u : string) : async response :=
  AwaitFetch {| method := "GET"; url := u |} Ret.

(** [await res.json()] *)
Definition json (res : response) : async value :=
  AwaitJson res Ret.

(** The network answers a request with a response, or the request fails
    and the promise of [fetch] rejects. *)
Definition network : Type := request → outcome response.

(** What an execution did, in order: each entry is one awaited operation. *)
Inductive event : Type :=
| Requested (rq : request)
| BodyRead (r : response).

(** Running an [async] body against a network: the operations performed
    and how the returned promise settles. An awaited promise that rejects
    throws at the [await]; nothing in [async] catches. *)
Fixpoint run {A} (net : network) (p : async A) : list event * outcome A :=
  match p with
  | Ret a => ([], Returned a)
  | Throw e => ([], Thrown e)
  | AwaitFetch rq k =>
      match net rq with
      | Returned r => let '(t, o) := run net (k r) in (Requested rq :: t, o)
      | Thrown e => ([Requested rq], Thrown e)
      end
  | AwaitJson r k =>
      match json_result r with
      | Returned v => let '(t, o) := run net (k v) in (BodyRead r :: t, o)
      | Thrown e => ([BodyRead r], Thrown e)
      end
  end.

Definition trace {A} (net : network) (p : async A) : list event := (run net p).1.
Definition settles {A} (net : network) (p : async A) : outcome A := (run net p).2.

(** The requests among the operations performed. *)
Fixpoint requests (t : list event) : list request :=
  match t with
  | [] => []
  | Requested rq :: t' => rq :: requests t'
  | BodyRead _ :: t' => requests t'
  end.

End Async.
Export Async.

(* ===================================================================== *)
(** * pages/posts/[id].js                                                 *)
(* ===================================================================== *)

Module PostPage.

(** [<div>Loading...</div>] *)
Definition placeholder : node :=
  Elem (Html "div") [] [Text "Loading..."].

(** [<div><h1>{title}</h1><p>{body}</p></div>] *)
Definition article (title body : value) : node :=
  Elem (Html "div") []
    [ Elem (Html "h1") [] [Expr title];
      Elem (Html "p") [] [Expr body] ].

(** [export default function Post({ post })] *)
Definition Post (props : gmap string value) : outcome node :=
  let post := field props "post" in
  if negb (truthy post) then
    Returned placeholder
  else
    title ← member post "title";
    body ← member post "body";
    Returned (article title body).

(** The route parameters of [pages/posts/[id].js]: the router binds [id]
    to the path segment, a string. *)
Record Params : Type := { id : string }.

(** The context argument of [getServerSideProps]. *)
Record Context : Type := { params : Params }.

Definition endpoint : string := "https://jsonplaceholder.typicode.com/posts/".

(** [export async function getServerSideProps({ params })] *)
Definition getServerSideProps (ctx : Context) : async value :=
  res ← fetch (endpoint +:+ id (params ctx));
  post ← json res;
  Ret (VObj {[ "props" := VObj {[ "post" := post ]} ]}).

(** The request [getServerSideProps] sends for a context: what [fetch]
    makes of the URL the template literal builds. *)
Definition request_for (ctx : Context) : request :=
  {| method := "GET"; url := endpoint +:+ id (params ctx) |}.

(** The [props] object in the result of [getServerSideProps], as the
    framework takes it out to hand it to the component. *)
Definition props_of (result : value) : outcome (gmap string value) :=
  match result with
  | VObj r =>
      match r !! "props" with
      | Some (VObj props) => Returned props
      | _ => Thrown (JsError "Error" "props must be an object")
      end
  | _ => Thrown (JsError "Error" "getServerSideProps must return an object")
  end.

(** One render of the page, as the framework drives it on a request:
    [getServerSideProps] first, then the component on its [props]. *)
Definition render (ctx : Context) : async node :=
  result ← getServerSideProps ctx;
  props ← lift (props_of result);
  lift (Post props).

End PostPage.

(* ===================================================================== *)
(** * pages/index.js, pages/about.js, pages/image-optimization.js         *)
(* ===================================================================== *)

Module StaticPages.

Section Pages.

(** [import myImage from '../public/nextjs.png']: the data the bundler
    puts in place of the image file. *)
Variable myImage : value.

(** [export default function Home()] *)
Definition Home (props : gmap string value) : node :=
  Elem (Html "div") []
    [ Elem (Html "h1") [] [Text "Welcome to Next.js!"];
      Elem (Html "p") [] [Text "This is the home page."];
      Elem (Component "Image")
        [ ("src", myImage); ("alt", VStr "Next.js Logo");
          ("width", VNum (number_of_Z 200)); ("height", VNum (number_of_Z 200)) ]
        [] ].

(** [export default function About()] *)
Definition About (props : gmap string value) : node :=
  Elem (Html "div") []
    [ Elem (Html "h1") [] [Text "About Us"];
      Elem (Html "p") [] [Text "This page is statically generated."] ].

(** [export async function getStaticProps()] *)
Definition getStaticProps : async value :=
  Ret (VObj {[ "props" := VObj ∅ ]}).

(** [export default function ImageOptimization()] *)
Definition ImageOptimization (props : gmap string value) : node :=
  Elem (Html "div") []
    [ Elem (Html "h1") [] [Text "Next.js Image Optimization"];
      Elem (Html "p") []
        [Text "This page demonstrates optimized image loading with Next.js."];
      Elem (Component "Image")
        [ ("src", VStr "/nextjs.png"); ("alt", VStr "Optimized Image");
          ("width", VNum (number_of_Z 400)); ("height", VNum (number_of_Z 300));
          ("priority", VBool true) ]
        [] ].

End Pages.

End StaticPages.

(* ===================================================================== *)
(** * pages/api/hello.js                                                  *)
(* ===================================================================== *)

Module Api.










End Api.

(* ===================================================================== *)
(** * Concrete inputs                                                     *)
(* ===================================================================== *)

Module Samples.

Import PostPage Api.

(** A record as the content service returns one. *)
Definition sample_record : gmap string value :=
  {[ "title" := VStr "sunt aut facere"; "body" := VStr "quia et suscipit" ]}.

(** The request for [/posts/1]. *)
Definition sample_context : Context := {| params := {| id := "1" |} |}.

(** A network that answers every request with the record. *)
Definition sample_response : response :=
  {| status := 200; json_result := Returned (VObj sample_record) |}.

Definition sample_network : network := λ _, Returned sample_response.

(** A network on which every request fails. *)
Definition unreachable_network : network :=
  λ _, Thrown (JsError "TypeError" "fetch failed").

(** A network that answers with an error page, which is not JSON. *)
Definition html_response : response :=
  {| status := 502;
     json_result := Thrown (JsError "SyntaxError" "Unexpected token < in JSON") |}.

Definition html_network : network := λ _, Returned html_response.

(** The answer for an id the content service does not have: status 404
    and an empty object; and a network that gives it. *)
Definition missing_response : response :=
  {| status := 404; json_result := Returned (VObj ∅) |}.

Definition missing_network : network := λ _, Returned missing_response.

(** The record again, under an error status. *)
Definition error_status_response : response :=
  {| status := 500; json_result := Returned (VObj sample_record) |}.

Definition error_status_network : network := λ _, Returned error_status_response.

(** A network that answers with the JSON document [null]. *)
Definition null_response : response :=
  {| status := 200; json_result := Returned VNull |}.

Definition null_network : network := λ _, Returned null_response.

(** A record that has a title and no body. *)
Definition untitled_props : gmap string value :=
  {[ "post" := VObj {[ "title" := VStr "sunt aut facere" ]} ]}.





End Samples.
Export Samples.

(* ===================================================================== *)
(** * Results: the Post component                                         *)
(* ===================================================================== *)

Import PostPage.

(** Unfolding the monadic notation of both monads. *)
Ltac unfold_bind :=
  unfold mbind, mret, outcome_bind, outcome_ret, async_bind, async_ret in *;
  simpl in *.

(** The component never throws: the guard keeps [undefined] and [null]
    away from the two member accesses. *)
Lemma member_truthy (v : value) (k : string) :
  truthy v = true → ∃ x, member v k = Returned x.
Proof.
  destruct v; simpl; intros Hv; try discriminate; eauto.
Qed.

Lemma Post_falsy (props : gmap string value) :
  truthy (field props "post") = false → Post props = Returned placeholder.
Proof.
  intros Hf. unfold Post. by rewrite Hf.
Qed.

Lemma Post_truthy (props : gmap string value) :
  truthy (field props "post") = true →
  ∃ title body,
    member (field props "post") "title" = Returned title ∧
    member (field props "post") "body" = Returned body ∧
    Post props = Returned (article title body).
Proof.
  intros Ht.
  destruct (member_truthy _ "title" Ht) as [t Et].
  destruct (member_truthy _ "body" Ht) as [b Eb].
  exists t, b. split; [done | split; [done |]].
  unfold Post. rewrite Ht. simpl. unfold_bind. by rewrite Et, Eb.
Qed.

Lemma article_not_placeholder (t b : value) : article t b ≠ placeholder.
Proof. unfold article, placeholder. intros H. discriminate H. Qed.

Lemma inside_article_title (t b : value) :
  inside (Html "h1") (Expr t) (article t b).
Proof.
  unfold article.
  eapply inside_below; [apply list_elem_of_here |].
  apply inside_here, list_elem_of_here.
Qed.

Lemma inside_article_body (t b : value) :
  inside (Html "p") (Expr b) (article t b).
Proof.
  unfold article.
  eapply inside_below; [apply list_elem_of_further, list_elem_of_here |].
  apply inside_here, list_elem_of_here.
Qed.

(** C1. A post record (an object, hence truthy) with a [title] text and a
    [body] text, passed as the [post] prop: the component returns the
    [div] that holds the title, verbatim, as the child of an [h1] and the
    body, verbatim, as the child of a [p]. *)
Theorem Post_renders_title_and_body
    (props record : gmap string value) (title body : string) :
  props !! "post" = Some (VObj record) →
  record !! "title" = Some (VStr title) →
  record !! "body" = Some (VStr body) →
  ∃ out,
    Post props = Returned out ∧
    out = Elem (Html "div") []
            [ Elem (Html "h1") [] [Expr (VStr title)];
              Elem (Html "p") [] [Expr (VStr body)] ] ∧
    inside (Html "h1") (Expr (VStr title)) out ∧
    inside (Html "p") (Expr (VStr body)) out.
Proof.
  intros Hpost Htitle Hbody.
  exists (article (VStr title) (VStr body)).
  split; [| split; [done | split]].
  - unfold Post, field. rewrite Hpost. simpl.
    unfold_bind. unfold field. by rewrite Htitle, Hbody.
  - apply inside_article_title.
  - apply inside_article_body.
Qed.

Lemma Post_renders_title_and_body_witness :
  ∃ out,
    Post {[ "post" := VObj sample_record ]} = Returned out ∧
    out = Elem (Html "div") []
            [ Elem (Html "h1") [] [Expr (VStr "sunt aut facere")];
              Elem (Html "p") [] [Expr (VStr "quia et suscipit")] ] ∧
    inside (Html "h1") (Expr (VStr "sunt aut facere")) out ∧
    inside (Html "p") (Expr (VStr "quia et suscipit")) out.
Proof.
  apply (Post_renders_title_and_body
           {[ "post" := VObj sample_record ]} sample_record
           "sunt aut facere" "quia et suscipit");
    vm_compute; reflexivity.
Defined.

(** C2. When the [post] prop is absent or falsy, the component returns
    exactly the placeholder: the [div] whose only content is the text
    "Loading...". *)
Theorem Post_placeholder_when_falsy (props : gmap string value) :
  truthy (field props "post") = false →
  Post props = Returned (Elem (Html "div") [] [Text "Loading..."]).
Proof.
  intros Hf. by rewrite Post_falsy.
Qed.

Lemma Post_placeholder_when_falsy_witness :
  Post ∅ = Returned (Elem (Html "div") [] [Text "Loading..."]) ∧
  Post {[ "post" := VNull ]} = Returned (Elem (Html "div") [] [Text "Loading..."]).
Proof.
  split.
  - apply (Post_placeholder_when_falsy ∅). reflexivity.
  - apply (Post_placeholder_when_falsy {[ "post" := VNull ]}). reflexivity.
Defined.

(** C9. The component returns the placeholder if and only if the [post]
    prop is falsy. On every truthy [post] it takes the other branch
    without throwing and returns the [div] with an [h1] around whatever
    [post.title] is and a [p] around whatever [post.body] is; on the
    empty object both are [undefined]. *)
Theorem Post_placeholder_iff_falsy (props : gmap string value) :
  (Post props = Returned (Elem (Html "div") [] [Text "Loading..."])
   ↔ truthy (field props "post") = false) ∧
  (truthy (field props "post") = true →
   ∃ title body,
     member (field props "post") "title" = Returned title ∧
     member (field props "post") "body" = Returned body ∧
     Post props =
       Returned (Elem (Html "div") []
                   [ Elem (Html "h1") [] [Expr title];
                     Elem (Html "p") [] [Expr body] ])) ∧
  Post {[ "post" := VObj ∅ ]} =
    Returned (Elem (Html "div") []
                [ Elem (Html "h1") [] [Expr VUndefined];
                  Elem (Html "p") [] [Expr VUndefined] ]).
Proof.
  split; [| split].
  - split.
    + intros HP. destruct (truthy (field props "post")) eqn:Ht; [| done].
      destruct (Post_truthy props Ht) as (t & b & _ & _ & E).
      rewrite E in HP. unfold article in HP. discriminate HP.
    + intros Hf. by rewrite Post_falsy.
  - intros Ht. destruct (Post_truthy props Ht) as (t & b & Et & Eb & E).
    exists t, b. by rewrite E.
  - reflexivity.
Qed.

Lemma Post_placeholder_iff_falsy_witness :
  ∃ title body,
    member (field {[ "post" := VStr "not a record" ]} "post") "title"
      = Returned title ∧
    member (field {[ "post" := VStr "not a record" ]} "post") "body"
      = Returned body ∧
    Post {[ "post" := VStr "not a record" ]} =
      Returned (Elem (Html "div") []
                  [ Elem (Html "h1") [] [Expr title];
                    Elem (Html "p") [] [Expr body] ]).
Proof.
  apply (proj1 (proj2 (Post_placeholder_iff_falsy
                         {[ "post" := VStr "not a record" ]}))).
  reflexivity.
Defined.

(* ===================================================================== *)
(** * Results: getServerSideProps and the render of the page              *)
(* ===================================================================== *)

(** Every execution of [getServerSideProps], by what the network does. *)
Lemma run_getServerSideProps (net : network) (ctx : Context) :
  run net (getServerSideProps ctx) =
    match net (request_for ctx) with
    | Thrown e => ([Requested (request_for ctx)], Thrown e)
    | Returned r =>
        match json_result r with
        | Thrown e => ([Requested (request_for ctx); BodyRead r], Thrown e)
        | Returned post =>
            ([Requested (request_for ctx); BodyRead r],
             Returned (VObj {[ "props" := VObj {[ "post" := post ]} ]}))
        end
    end.
Proof.
  unfold getServerSideProps, request_for. unfold_bind.
  destruct (net _) as [r | e]; [| done].
  simpl. by destruct (json_result r).
Qed.

Lemma run_abind {A B} (net : network) (p : async A) (f : A → async B) :
  run net (abind p f) =
    match run net p with
    | (t, Returned a) => let '(t', o) := run net (f a) in ((t ++ t')%list, o)
    | (t, Thrown e) => (t, Thrown e)
    end.
Proof.
  induction p as [a | e | rq k IH | r k IH]; simpl.
  - by destruct (run net (f a)).
  - done.
  - destruct (net rq) as [r | e]; [| done].
    rewrite IH. destruct (run net (k r)) as [t [a | e]]; [| done].
    by destruct (run net (f a)).
  - destruct (json_result r) as [v | e]; [| done].
    rewrite IH. destruct (run net (k v)) as [t [a | e]]; [| done].
    by destruct (run net (f a)).
Qed.

Lemma run_lift {A} (net : network) (o : outcome A) : run net (lift o) = ([], o).
Proof. by destruct o. Qed.

(** Every execution of one render of the page. *)
Lemma run_render (net : network) (ctx : Context) :
  run net (render ctx) =
    match net (request_for ctx) with
    | Thrown e => ([Requested (request_for ctx)], Thrown e)
    | Returned r =>
        match json_result r with
        | Thrown e => ([Requested (request_for ctx); BodyRead r], Thrown e)
        | Returned post =>
            ([Requested (request_for ctx); BodyRead r], Post {[ "post" := post ]})
        end
    end.
Proof.
  unfold render. unfold mbind, async_bind.
  rewrite run_abind, run_getServerSideProps.
  destruct (net _) as [r | e]; [| done].
  destruct (json_result r) as [post | e]; [| done].
  rewrite run_abind. simpl. rewrite lookup_singleton_eq. simpl.
  rewrite run_lift. done.
Qed.

(** C3. For every [id] string, whatever it is, and every network,
    [getServerSideProps] sends exactly one request: a GET to the fixed
    endpoint with [id] appended; it is the first thing the function
    does. *)
Theorem getServerSideProps_one_get (net : network) (i : string) :
  let ctx := {| params := {| id := i |} |} in
  let rq := {| method := "GET";
               url := "https://jsonplaceholder.typicode.com/posts/" +:+ i |} in
  requests (trace net (getServerSideProps ctx)) = [rq] ∧
  ∃ rest, trace net (getServerSideProps ctx) = Requested rq :: rest.
Proof.
  intros ctx rq. unfold trace. rewrite run_getServerSideProps.
  change (request_for ctx) with rq.
  destruct (net rq) as [r | e]; [destruct (json_result r) |]; simpl; eauto.
Qed.

(** C4. A failure of the request, or a response body that does not decode
    as JSON, comes out of [getServerSideProps] as it is: the promise the
    function returns rejects with that very exception, and no value is
    returned in its place. *)
Theorem getServerSideProps_propagates (net : network) (ctx : Context) (e : exn) :
  (net (request_for ctx) = Thrown e ∨
   ∃ r, net (request_for ctx) = Returned r ∧ json_result r = Thrown e) →
  settles net (getServerSideProps ctx) = Thrown e.
Proof.
  unfold settles. rewrite run_getServerSideProps.
  intros [Hnet | (r & Hnet & Hjson)]; rewrite Hnet; [done |].
  by rewrite Hjson.
Qed.

Lemma getServerSideProps_propagates_witness :
  settles unreachable_network (getServerSideProps sample_context)
    = Thrown (JsError "TypeError" "fetch failed") ∧
  settles html_network (getServerSideProps sample_context)
    = Thrown (JsError "SyntaxError" "Unexpected token < in JSON").
Proof.
  split.
  - apply (getServerSideProps_propagates unreachable_network sample_context).
    left. reflexivity.
  - apply (getServerSideProps_propagates html_network sample_context).
    right. exists html_response. split; reflexivity.
Defined.

(** C6. When the request succeeds and the body decodes to [post], the
    function returns the object whose only key is [props], whose value is
    the object whose only key is [post], whose value is the decoded
    record itself. *)
Theorem getServerSideProps_returns_props_post
    (net : network) (ctx : Context) (r : response) (post : value) :
  net (request_for ctx) = Returned r →
  json_result r = Returned post →
  settles net (getServerSideProps ctx)
    = Returned (VObj {[ "props" := VObj {[ "post" := post ]} ]}) ∧
  ∃ result props : gmap string value,
    settles net (getServerSideProps ctx) = Returned (VObj result) ∧
    dom result = {[ "props" ]} ∧
    result !! "props" = Some (VObj props) ∧
    dom props = {[ "post" ]} ∧
    props !! "post" = Some post.
Proof.
  intros Hnet Hjson. unfold settles.
  rewrite run_getServerSideProps, Hnet, Hjson. simpl.
  split; [done |].
  exists {[ "props" := VObj {[ "post" := post ]} ]}, {[ "post" := post ]}.
  split_and!; try done; apply dom_singleton_L.
Qed.

Lemma getServerSideProps_returns_props_post_witness :
  settles sample_network (getServerSideProps sample_context)
    = Returned (VObj {[ "props" := VObj {[ "post" := VObj sample_record ]} ]}) ∧
  ∃ result props : gmap string value,
    settles sample_network (getServerSideProps sample_context)
      = Returned (VObj result) ∧
    dom result = {[ "props" ]} ∧
    result !! "props" = Some (VObj props) ∧
    dom props = {[ "post" ]} ∧
    props !! "post" = Some (VObj sample_record).
Proof.
  apply (getServerSideProps_returns_props_post
           sample_network sample_context sample_response (VObj sample_record));
    reflexivity.
Defined.

(** C8, as stated, fails: a render whose request succeeds awaits twice,
    the request and then the reading of the body of its response. *)
Lemma render_awaits_twice :
  ¬ (length (trace sample_network (render sample_context)) ≤ 1)%nat.
Proof.
  unfold trace. rewrite run_render. simpl. lia.
Qed.

(** C8, amended. Every render of the page sends exactly one request and
    awaits at most twice: the request, and then the reading of the body
    of the response to that request. If either fails the render ends
    there with the failure; otherwise the output is what the component
    returns on the decoded record, produced after both have completed.
    Nothing else is performed. *)
Theorem render_one_request_two_awaits (net : network) (ctx : Context) :
  requests (trace net (render ctx)) = [request_for ctx] ∧
  (length (trace net (render ctx)) ≤ 2)%nat ∧
  run net (render ctx) =
    match net (request_for ctx) with
    | Thrown e => ([Requested (request_for ctx)], Thrown e)
    | Returned r =>
        match json_result r with
        | Thrown e => ([Requested (request_for ctx); BodyRead r], Thrown e)
        | Returned post =>
            ([Requested (request_for ctx); BodyRead r], Post {[ "post" := post ]})
        end
    end.
Proof.
  unfold trace. rewrite run_render.
  destruct (net _) as [r | e]; [destruct (json_result r) |]; simpl;
    split_and!; auto with lia.
Qed.

(* ===================================================================== *)
(** * Results: the static pages                                           *)
(* ===================================================================== *)

Import StaticPages.

(** C7. The static pages are functions of nothing: whatever props two
    invocations receive, About returns the same tree, and so does Home
    (for the image the module imports) and the image page. They are not
    [async] and so await nothing; [getStaticProps] awaits nothing either
    and returns the same empty [props] on every network. *)
Theorem static_pages_invariant
    (myImage : value) (props1 props2 : gmap string value) (net1 net2 : network) :
  About props1 = About props2 ∧
  Home myImage props1 = Home myImage props2 ∧
  ImageOptimization props1 = ImageOptimization props2 ∧
  run net1 getStaticProps = ([], Returned (VObj {[ "props" := VObj ∅ ]})) ∧
  run net1 getStaticProps = run net2 getStaticProps.
Proof.
  split_and!; reflexivity.
Qed.

(* ===================================================================== *)
(** * Results: the API route                                              *)
(* ===================================================================== *)

Import Api.

Section ApiRoute.

Context `{F : Framework}.




End ApiRoute.



(* ===================================================================== *)
(** * Further results: the Post component                                 *)
(* ===================================================================== *)

Lemma Post_cases (props : gmap string value) :
  Post props = Returned placeholder ∨
  ∃ title body, Post props = Returned (article title body).
Proof.
  destruct (truthy (field props "post")) eqn:Ht.
  - right. destruct (Post_truthy props Ht) as (t & b & _ & _ & E). eauto.
  - left. by apply Post_falsy.
Qed.

(** X1. The component never throws, whatever its props: it always
    returns a [div] without attributes that has one child (the
    placeholder) or two (the [h1] and the [p]). *)
Theorem Post_always_returns_div (props : gmap string value) :
  ∃ kids,
    Post props = Returned (Elem (Html "div") [] kids) ∧
    (length kids = 1 ∨ length kids = 2)%nat.
Proof.
  destruct (Post_cases props) as [E | (t & b & E)]; rewrite E.
  - exists [Text "Loading..."]. split; [done | by left].
  - exists [Elem (Html "h1") [] [Expr t]; Elem (Html "p") [] [Expr b]].
    split; [done | by right].
Qed.

(** X2. When [post] is an object, the component returns the [div] whose
    [h1] holds the value of the object's [title] property and whose [p]
    holds the value of its [body] property, each as it is, a string or
    not; a property the object does not have gives [undefined]. *)
Theorem Post_record_fields (props record : gmap string value) :
  props !! "post" = Some (VObj record) →
  Post props =
    Returned
      (Elem (Html "div") []
         [ Elem (Html "h1") [] [Expr (default VUndefined (record !! "title"))];
           Elem (Html "p") [] [Expr (default VUndefined (record !! "body"))] ]).
Proof.
  intros Hpost. unfold Post, field. rewrite Hpost. simpl. done.
Qed.

Lemma Post_record_fields_witness :
  Post untitled_props =
    Returned
      (Elem (Html "div") []
         [ Elem (Html "h1") [] [Expr (VStr "sunt aut facere")];
           Elem (Html "p") [] [Expr VUndefined] ]).
Proof.
  exact (Post_record_fields
           untitled_props {[ "title" := VStr "sunt aut facere" ]} eq_refl).
Defined.

(** X3. A truthy [post] that is not an object ([true], a number other
    than zero and NaN, a string that is not empty, an array, also an
    empty one) gives the [div] with an [h1] and a [p] that both hold
    [undefined]: neither the placeholder nor an exception. *)
Theorem Post_truthy_non_record (props : gmap string value) :
  truthy (field props "post") = true →
  (∀ record, field props "post" ≠ VObj record) →
  Post props =
    Returned
      (Elem (Html "div") []
         [ Elem (Html "h1") [] [Expr VUndefined];
           Elem (Html "p") [] [Expr VUndefined] ]).
Proof.
  intros Ht Hno. unfold Post. rewrite Ht. simpl.
  destruct (field props "post") as [| | b | n | s | items | record];
    try discriminate Ht; try done.
  by destruct (Hno record).
Qed.

Lemma Post_truthy_non_record_witness :
  Post {[ "post" := VArr [] ]} =
    Returned
      (Elem (Html "div") []
         [ Elem (Html "h1") [] [Expr VUndefined];
           Elem (Html "p") [] [Expr VUndefined] ]).
Proof.
  apply (Post_truthy_non_record {[ "post" := VArr [] ]}).
  - reflexivity.
  - intros record H. vm_compute in H. discriminate H.
Defined.

(* ===================================================================== *)
(** * Further results: getServerSideProps and the render of the page      *)
(* ===================================================================== *)

(** X5. The status of the response is never looked at: two networks
    whose responses to the request decode alike (or fail to decode
    alike) make [getServerSideProps] settle alike, whatever the two
    status codes are. An error status is no error to this function. *)
Theorem getServerSideProps_ignores_status
    (net1 net2 : network) (ctx : Context) (r1 r2 : response) :
  net1 (request_for ctx) = Returned r1 →
  net2 (request_for ctx) = Returned r2 →
  json_result r1 = json_result r2 →
  settles net1 (getServerSideProps ctx) = settles net2 (getServerSideProps ctx).
Proof.
  intros H1 H2 Hjson. unfold settles.
  rewrite !run_getServerSideProps, H1, H2, Hjson.
  by destruct (json_result r2).
Qed.

Lemma getServerSideProps_ignores_status_witness :
  settles sample_network (getServerSideProps sample_context) =
  settles error_status_network (getServerSideProps sample_context).
Proof.
  apply (getServerSideProps_ignores_status
           sample_network error_status_network sample_context
           sample_response error_status_response); reflexivity.
Defined.

(** X6. A body is read only from the response the network gave to the
    request of this very call: when the request fails no body is read,
    and no other response is ever touched. *)
Theorem getServerSideProps_reads_own_response
    (net : network) (ctx : Context) (r : response) :
  BodyRead r ∈ trace net (getServerSideProps ctx) →
  net (request_for ctx) = Returned r.
Proof.
  unfold trace. rewrite run_getServerSideProps.
  destruct (net _) as [r' | e].
  - intros Hin.
    assert (BodyRead r ∈ [Requested (request_for ctx); BodyRead r']) as Hin'
      by (by destruct (json_result r')).
    apply list_elem_of_In in Hin'. simpl in Hin'.
    destruct Hin' as [H | [H | []]]; [discriminate H | congruence].
  - simpl. intros Hin. apply list_elem_of_In in Hin. simpl in Hin.
    destruct Hin as [H | []]. discriminate H.
Qed.

Lemma getServerSideProps_reads_own_response_witness :
  BodyRead sample_response ∈ trace sample_network (getServerSideProps sample_context) ∧
  sample_network (request_for sample_context) = Returned sample_response.
Proof.
  assert (BodyRead sample_response
            ∈ trace sample_network (getServerSideProps sample_context)) as Hin.
  { apply list_elem_of_further, list_elem_of_here. }
  split; [exact Hin |].
  apply (getServerSideProps_reads_own_response
           sample_network sample_context sample_response Hin).
Defined.

(** X7. The two halves of the page compose: when the request succeeds
    and the body decodes to an object whose [title] and [body] are each
    a string or missing, the render performs the request and the read of
    that response, in this order, and returns the [div] with the title
    in its [h1] and the body in its [p], where a missing one is
    [undefined] (so the empty object the service gives for an unknown id
    comes out as an empty [h1] and an empty [p]). *)
Theorem render_record
    (net : network) (ctx : Context) (r : response)
    (record : gmap string value) (title body : option string) :
  net (request_for ctx) = Returned r →
  json_result r = Returned (VObj record) →
  record !! "title" = VStr <$> title →
  record !! "body" = VStr <$> body →
  run net (render ctx) =
    ([Requested (request_for ctx); BodyRead r],
     Returned
       (Elem (Html "div") []
          [ Elem (Html "h1") [] [Expr (from_option VStr VUndefined title)];
            Elem (Html "p") [] [Expr (from_option VStr VUndefined body)] ])).
Proof.
  intros Hnet Hjson Htitle Hbody. rewrite run_render, Hnet, Hjson.
  unfold Post, field. rewrite lookup_singleton_eq. simpl.
  unfold field. rewrite Htitle, Hbody.
  by destruct title, body.
Qed.

Lemma render_record_witness :
  run sample_network (render sample_context) =
    ([Requested (request_for sample_context); BodyRead sample_response],
     Returned
       (Elem (Html "div") []
          [ Elem (Html "h1") [] [Expr (VStr "sunt aut facere")];
            Elem (Html "p") [] [Expr (VStr "quia et suscipit")] ])) ∧
  run missing_network (render sample_context) =
    ([Requested (request_for sample_context); BodyRead missing_response],
     Returned
       (Elem (Html "div") []
          [ Elem (Html "h1") [] [Expr VUndefined];
            Elem (Html "p") [] [Expr VUndefined] ])).
Proof.
  split.
  - exact (render_record sample_network sample_context sample_response
             sample_record (Some "sunt aut facere") (Some "quia et suscipit")
             eq_refl eq_refl eq_refl eq_refl).
  - exact (render_record missing_network sample_context missing_response
             ∅ None None eq_refl eq_refl eq_refl eq_refl).
Defined.

(** X9. A render shows the placeholder exactly when the request
    succeeds and the body decodes to a falsy value ([null], [false],
    zero, the empty string). *)
Theorem render_placeholder_iff (net : network) (ctx : Context) :
  settles net (render ctx) = Returned placeholder ↔
  ∃ r post,
    net (request_for ctx) = Returned r ∧
    json_result r = Returned post ∧
    truthy post = false.
Proof.
  unfold settles. rewrite run_render.
  assert (Hfield : ∀ post : value, field {[ "post" := post ]} "post" = post).
  { intros post. unfold field. by rewrite lookup_singleton_eq. }
  destruct (net _) as [r | e'] eqn:Hnet.
  - destruct (json_result r) as [post | e'] eqn:Hjson; simpl.
    + split.
      * intros H. exists r, post. split_and!; try done.
        destruct (truthy post) eqn:Ht; [| done].
        rewrite <- (Hfield post) in Ht.
        destruct (Post_truthy _ Ht) as (t & b & _ & _ & E).
        rewrite E in H.
        assert (article t b = placeholder) as Habs by congruence.
        by apply article_not_placeholder in Habs.
      * intros (r' & post' & Hr & Hp & Hf).
        injection Hr as <-. rewrite Hjson in Hp. injection Hp as <-.
        apply Post_falsy. by rewrite Hfield.
    + split; [discriminate |].
      intros (r' & post' & Hr & Hp & _).
      injection Hr as <-. rewrite Hjson in Hp. discriminate Hp.
  - simpl. split; [discriminate |].
    intros (r' & post' & Hr & _). discriminate Hr.
Qed.

Lemma render_placeholder_iff_witness :
  settles null_network (render sample_context) = Returned placeholder.
Proof.
  apply (proj2 (render_placeholder_iff null_network sample_context)).
  exists null_response, VNull. split_and!; reflexivity.
Defined.
